(** * The file-processing pipeline: handler and stack

    A shallow embedding of [lambda/processor.ts] (the Lambda handler) and of
    [lib/my_small_project-stack.ts] (the CDK stack that deploys it), with the
    properties of the handler's runs and of the deployed wiring.

    Strings are byte strings (the UTF-8 text of the JavaScript string).  The
    managed services are a [World]: one table, one queue, and the trace of
    the calls issued; what the services answer is an input, the [Env]. *)

From Stdlib Require Import String Ascii List NArith ZArith DecimalString DecimalN.
From stdpp Require Import gmap strings list.

Import ListNotations.
Local Open Scope string_scope.

#[local] Set Warnings "-register-all".

(** ** JavaScript values and [JSON.stringify] *)

Module Js.

(** The values the handler builds: strings, booleans and plain objects,
    an object being its properties in insertion order. *)
Inductive value :=
| Str (s : string)
| Bool (b : bool)
| Obj (fields : list (string * value)).

(** Own property names of a value, in order ([Object.keys]). *)
Definition keys (v : value) : list string :=
  match v with
  | Obj fields => map fst fields
  | _ => []
  end.

(** Property read [v[k]]: [None] is [undefined]. *)
Fixpoint assoc (k : string) (fields : list (string * value)) : option value :=
  match fields with
  | [] => None
  | (k', v) :: rest => if String.eqb k k' then Some v else assoc k rest
  end.

Definition get (k : string) (v : value) : option value :=
  match v with
  | Obj fields => assoc k fields
  | _ => None
  end.

End Js.

(** [String(n)] for a non-negative integer below 10^21: its decimal digits. *)
Definition String_of_number (n : N) : string :=
  NilEmpty.string_of_uint (N.to_uint n).

Module JSON.

Definition hex_digit (n : N) : ascii :=
  match n with
  | 0 => "0" | 1 => "1" | 2 => "2" | 3 => "3" | 4 => "4"
  | 5 => "5" | 6 => "6" | 7 => "7" | 8 => "8" | 9 => "9"
  | 10 => "a" | 11 => "b" | 12 => "c" | 13 => "d" | 14 => "e"
  | _ => "f"
  end%N%char.

(** One character of a quoted string: the quote, the backslash and the
    control characters are escaped, everything else is kept. *)
Definition backslash : string := String (ascii_of_N 92) EmptyString.

Definition escape (c : ascii) : string :=
  let n := N_of_ascii c in
  if (n =? 34)%N then backslash ++ String c EmptyString
  else if (n =? 92)%N then backslash ++ backslash
  else if (n =? 8)%N then backslash ++ "b"
  else if (n =? 9)%N then backslash ++ "t"
  else if (n =? 10)%N then backslash ++ "n"
  else if (n =? 12)%N then backslash ++ "f"
  else if (n =? 13)%N then backslash ++ "r"
  else if (n <? 32)%N then
    backslash ++ "u00"
      ++ String (hex_digit (n / 16)) (String (hex_digit (n mod 16)) EmptyString)
  else String c EmptyString.

Fixpoint escape_all (s : string) : string :=
  match s with
  | EmptyString => EmptyString
  | String c rest => escape c ++ escape_all rest
  end.

Definition dquote : string := String (ascii_of_N 34) EmptyString.

Definition quote (s : string) : string := dquote ++ escape_all s ++ dquote.

Fixpoint join (sep : string) (parts : list string) : string :=
  match parts with
  | [] => EmptyString
  | [p] => p
  | p :: rest => p ++ sep ++ join sep rest
  end.

(** [JSON.stringify] on the values above, without indentation.  Property
    names that are not array indices are written in insertion order. *)
Fixpoint stringify (v : Js.value) : string :=
  match v with
  | Js.Str s => quote s
  | Js.Bool true => "true"
  | Js.Bool false => "false"
  | Js.Obj fields =>
      "{" ++ join ","
               ((fix members (l : list (string * Js.value)) : list string :=
                   match l with
                   | [] => []
                   | (k, x) :: rest => (quote k ++ ":" ++ stringify x) :: members rest
                   end) fields)
          ++ "}"
  end.

End JSON.


(** ** The event: [S3Event] of the aws-lambda types

    Only the parts the handler reads.  [Records] is optional because the
    handler tests it with [?.]: an object without that property (any event
    that is not an S3 notification) has [Records = None].  The size of an
    object is a number of bytes. *)

Record S3Object := { key : string; size : N }.
Record S3Entity := { object : S3Object }.
Record S3EventRecord := { s3 : S3Entity }.
Record S3Event := { Records : option (list S3EventRecord) }.

Record LambdaResponse := { statusCode : Z; body : string }.

(** ** The services and the [Promise] monad *)

(** A value thrown or rejected with: an [Error] instance with the text of
    its [stack], or anything else, with the text [String] gives it. *)
Inductive thrown :=
| Error_ (stack : string)
| NotError (text : string).

(** [new Error(message)]; the frames of the stack trace are left out. *)
Definition new_Error (message : string) : thrown := Error_ ("Error: " ++ message).

Definition err_stack (e : thrown) : string :=
  match e with
  | Error_ stack => stack
  | NotError text => text
  end.

(** What a run does to the outside, in the order it does it. *)
Inductive effect :=
| PutItem (TableName : string) (Item : Js.value)
| SendMessage (QueueUrl : string) (MessageBody : string)
| ConsoleError (args : list string).

(** The table maps the partition key [fileId] to the stored item, the queue
    holds message bodies, oldest first; [trace] lists the calls issued,
    failed ones included. *)
Record World := {
  table : gmap string Js.value;
  queue : list string;
  trace : list effect
}.

(** What the run is given from outside: the two environment variables the
    stack injects, the clock, and whether each service call fails. *)
Record Env := {
  TABLE_NAME : string;
  QUEUE_URL : string;
  now : string;
  dynamo_fault : option thrown;
  sqs_fault : option thrown
}.

Inductive settled (A : Type) :=
| Resolved (a : A)
| Rejected (e : thrown).
Arguments Resolved {A} a.
Arguments Rejected {A} e.

Definition Promise (A : Type) : Type := Env -> World -> settled A * World.

Definition resolve {A} (a : A) : Promise A := fun _ w => (Resolved a, w).
Definition reject {A} (e : thrown) : Promise A := fun _ w => (Rejected e, w).

(** [await p] followed by the rest of the function body. *)
Definition await {A B} (p : Promise A) (k : A -> Promise B) : Promise B :=
  fun env w =>
    match p env w with
    | (Resolved a, w') => k a env w'
    | (Rejected e, w') => (Rejected e, w')
    end.

Definition try_catch {A} (block : Promise A) (handle : thrown -> Promise A) : Promise A :=
  fun env w =>
    match block env w with
    | (Resolved a, w') => (Resolved a, w')
    | (Rejected e, w') => handle e env w'
    end.

Notation "x <- p ;; k" := (await p (fun x => k))
  (at level 100, p at next level, right associativity).

Definition emit (e : effect) (w : World) : World :=
  {| table := table w; queue := queue w; trace := trace w ++ [e] |}.

(** [new Date().toISOString()] *)
Definition Date_toISOString : Promise string := fun env w => (Resolved (now env), w).

Definition getenv (var : Env -> string) : Promise string :=
  fun env w => (Resolved (var env), w).

(** The partition key of an item: the string under [fileId.S], the stack
    declaring the table with partition key [fileId] of type string. *)
Definition item_key (item : Js.value) : option string :=
  match Js.get "fileId" item with
  | Some attr => match Js.get "S" attr with
                 | Some (Js.Str k) => Some k
                 | _ => None
                 end
  | None => None
  end.

Definition ValidationException : thrown :=
  Error_ "ValidationException: One of the required keys was not given a value".

(** [dynamo.send(new PutItemCommand({TableName, Item}))]: the item replaces
    whatever the table held under its key; a call that fails leaves the table
    as it was. *)
Definition dynamo_send_PutItem (TableName : string) (Item : Js.value) : Promise unit :=
  fun env w =>
    let w := emit (PutItem TableName Item) w in
    match dynamo_fault env, item_key Item with
    | Some e, _ => (Rejected e, w)
    | None, None => (Rejected ValidationException, w)
    | None, Some k =>
        (Resolved tt,
         {| table := <[k := Item]> (table w); queue := queue w; trace := trace w |})
    end.

(** [sqs.send(new SendMessageCommand({QueueUrl, MessageBody}))] *)
Definition sqs_send_SendMessage (QueueUrl MessageBody : string) : Promise unit :=
  fun env w =>
    let w := emit (SendMessage QueueUrl MessageBody) w in
    match sqs_fault env with
    | Some e => (Rejected e, w)
    | None =>
        (Resolved tt,
         {| table := table w; queue := queue w ++ [MessageBody]; trace := trace w |})
    end.

Definition console_error (args : list string) : Promise unit :=
  fun _ w => (Resolved tt, emit (ConsoleError args) w).

(** ** The handler *)

(** [!event.Records?.length] *)
Definition no_Records (event : S3Event) : bool :=
  match Records event with
  | None => true
  | Some l => Nat.eqb (length l) 0
  end.

(** [event.Records[0]] *)
Definition Records_0 (event : S3Event) : option S3EventRecord :=
  match Records event with
  | None => None
  | Some l => nth_error l 0
  end.

Definition TypeError_s3 : thrown :=
  Error_ "TypeError: Cannot read properties of undefined (reading 's3')".

Definition attr_S (s : string) : Js.value := Js.Obj [("S", Js.Str s)].
Definition attr_N (s : string) : Js.value := Js.Obj [("N", Js.Str s)].

Definition metadata_of (fileId timestamp : string) (record : S3EventRecord) : Js.value :=
  Js.Obj [ ("fileId", attr_S fileId);
           ("status", attr_S "PROCESSED");
           ("timestamp", attr_S timestamp);
           ("size", attr_N (String_of_number (size (object (s3 record))))) ].

Definition handler (event : S3Event) : Promise LambdaResponse :=
  if no_Records event then
    resolve {| statusCode := 400;
               body := JSON.stringify (Js.Obj [("error", Js.Str "Invalid event")]) |}
  else
    match Records_0 event with
    | None => reject TypeError_s3
    | Some record =>
        let fileId := key (object (s3 record)) in
        try_catch
          (timestamp <- Date_toISOString ;;
           let metadata := metadata_of fileId timestamp record in
           table_name <- getenv TABLE_NAME ;;
           _ <- dynamo_send_PutItem table_name metadata ;;
           queue_url <- getenv QUEUE_URL ;;
           _ <- sqs_send_SendMessage queue_url (JSON.stringify metadata) ;;
           resolve {| statusCode := 200;
                      body := JSON.stringify
                                (Js.Obj [("success", Js.Bool true);
                                         ("fileId", Js.Str fileId)]) |})
          (fun error =>
             let err := match error with
                        | Error_ _ => error
                        | NotError text => new_Error text
                        end in
             _ <- console_error ["FAILED " ++ fileId ++ ":"; err_stack err] ;;
             resolve {| statusCode := 500;
                        body := JSON.stringify
                                  (Js.Obj [("error", Js.Str "Internal error");
                                           ("requestId", Js.Str fileId)]) |})
    end.

(** ** The stack: [MySmallProjectStack]

    The constructor of the stack as the list of its construct calls, in
    source order, constructs being named by their ids.  [LambdaDestination]
    and [addEventSource] are the two ways the construct library offers to
    have a function invoked by a bucket notification or by a queue. *)

Module Cdk.

Inductive EventType := OBJECT_CREATED.

Definition EventType_eqb (a b : EventType) : bool :=
  match a, b with
  | OBJECT_CREATED, OBJECT_CREATED => true
  end.

Inductive AttributeType := STRING.
Inductive BillingMode := PAY_PER_REQUEST.
Inductive Runtime := NODEJS_20_X.

Inductive Destination :=
| SqsDestination (queue : string)
| LambdaDestination (fn : string).

Inductive EventSource := SqsEventSource (queue : string).

Inductive Integration := LambdaIntegration (fn : string).

Inductive Ref :=
| tableName (table : string)
| queueUrl (queue : string).

Inductive Statement :=
| new_Bucket (id : string)
| new_Queue (id : string)
| new_Table (id : string) (partitionKey : string * AttributeType)
            (billingMode : BillingMode)
| new_Function (id : string) (runtime : Runtime) (code : string) (handler : string)
               (environment : list (string * Ref))
| new_RestApi (id : string)
| addEventNotification (bucket : string) (event : EventType) (dest : Destination)
| addEventSource (fn : string) (source : EventSource)
| grantRead (bucket grantee : string)
| grantWriteData (table grantee : string)
| grantSendMessages (queue grantee : string)
| addMethod (api : string) (path : list string) (httpMethod : string)
            (integration : Integration).

Definition Stack := list Statement.

Definition MySmallProjectStack : Stack :=
  [ new_Bucket "UploadBucket";
    new_Queue "NotificationQueue";
    addEventNotification "UploadBucket" OBJECT_CREATED
      (SqsDestination "NotificationQueue");
    new_Table "MetadataTable" ("fileId", STRING) PAY_PER_REQUEST;
    new_Function "LambdaProcessingTheFile" NODEJS_20_X "lambda" "processor.handler"
      [ ("TABLE_NAME", tableName "MetadataTable");
        ("QUEUE_URL", queueUrl "NotificationQueue") ];
    grantRead "UploadBucket" "LambdaProcessingTheFile";
    grantWriteData "MetadataTable" "LambdaProcessingTheFile";
    grantSendMessages "NotificationQueue" "LambdaProcessingTheFile";
    addEventNotification "UploadBucket" OBJECT_CREATED
      (SqsDestination "NotificationQueue");
    new_RestApi "FileApi";
    addMethod "FileApi" ["files"; "{fileId}"] "GET"
      (LambdaIntegration "LambdaProcessingTheFile") ].

(** Where the notifications of a bucket go. *)
Fixpoint notification_targets (stack : Stack) (bucket : string) (event : EventType)
  : list Destination :=
  match stack with
  | [] => []
  | addEventNotification b ev dest :: rest =>
      if String.eqb b bucket && EventType_eqb ev event
      then dest :: notification_targets rest bucket event
      else notification_targets rest bucket event
  | _ :: rest => notification_targets rest bucket event
  end.

(** The functions that poll a queue. *)
Fixpoint queue_consumers (stack : Stack) (queue : string) : list string :=
  match stack with
  | [] => []
  | addEventSource fn (SqsEventSource q) :: rest =>
      if String.eqb q queue
      then fn :: queue_consumers rest queue
      else queue_consumers rest queue
  | _ :: rest => queue_consumers rest queue
  end.

(** The functions invoked when the bucket emits the event: those it
    notifies directly and those that poll a queue it notifies. *)
Definition invoked_on (stack : Stack) (bucket : string) (event : EventType)
  : list string :=
  flat_map (fun dest =>
              match dest with
              | LambdaDestination fn => [fn]
              | SqsDestination q => queue_consumers stack q
              end)
           (notification_targets stack bucket event).

(** A path part in braces is a path parameter and matches any segment. *)
Definition segment_matches (part segment : string) : bool :=
  match part with
  | String "{"%char _ => true
  | _ => String.eqb part segment
  end.

Fixpoint path_matches (parts path : list string) : bool :=
  match parts, path with
  | [], [] => true
  | part :: parts', segment :: path' =>
      segment_matches part segment && path_matches parts' path'
  | _, _ => false
  end.

(** The integration behind a request to a REST api. *)
Fixpoint route (stack : Stack) (api httpMethod : string) (path : list string)
  : option Integration :=
  match stack with
  | [] => None
  | addMethod a parts m integration :: rest =>
      if String.eqb a api && String.eqb m httpMethod && path_matches parts path
      then Some integration
      else route rest api httpMethod path
  | _ :: rest => route rest api httpMethod path
  end.

(** The asset directory and entry point a function was declared with. *)
Fixpoint entry_point (stack : Stack) (fn : string) : option (string * string) :=
  match stack with
  | [] => None
  | new_Function id _ code handler _ :: rest =>
      if String.eqb id fn then Some (code, handler) else entry_point rest fn
  | _ :: rest => entry_point rest fn
  end.

End Cdk.

(** The code behind an entry point: [lambda/processor.ts] exports [handler]. *)
Definition lambda_code (entry : string * string) : option (S3Event -> Promise LambdaResponse) :=
  let (code, name) := entry in
  if String.eqb code "lambda" && String.eqb name "processor.handler"
  then Some handler
  else None.

(** A proxy event of the gateway as the handler sees it: the object has the
    request's fields and no [Records] property. *)
Record APIGatewayProxyEvent := {
  httpMethod : string;
  path : list string
}.

Definition as_S3Event (request : APIGatewayProxyEvent) : S3Event :=
  {| Records := None |}.

(** A request to a REST api of the stack, through the integration of its
    route; [None] when no route or no function answers. *)
Definition serve (stack : Cdk.Stack) (api : string) (request : APIGatewayProxyEvent)
  : option (Promise LambdaResponse) :=
  match Cdk.route stack api (httpMethod request) (path request) with
  | Some (Cdk.LambdaIntegration fn) =>
      match Cdk.entry_point stack fn with
      | Some entry =>
          match lambda_code entry with
          | Some code => Some (code (as_S3Event request))
          | None => None
          end
      | None => None
      end
  | None => None
  end.

(** ** Vocabulary of the properties *)

(** A well-formed event has a first record; a malformed one has no
    [Records] or an empty list. *)
Definition well_formed (event : S3Event) : Prop :=
  exists record rest, Records event = Some (record :: rest).

Definition malformed (event : S3Event) : Prop :=
  Records event = None \/ Records event = Some [].

(** What a run added to the trace. *)
Definition new_effects (before after : World) : list effect :=
  drop (length (trace before)) (trace after).

Definition invalid_event : LambdaResponse :=
  {| statusCode := 400;
     body := JSON.stringify (Js.Obj [("error", Js.Str "Invalid event")]) |}.

Definition success (fileId : string) : LambdaResponse :=
  {| statusCode := 200;
     body := JSON.stringify (Js.Obj [("success", Js.Bool true);
                                     ("fileId", Js.Str fileId)]) |}.

Definition internal_error (fileId : string) : LambdaResponse :=
  {| statusCode := 500;
     body := JSON.stringify (Js.Obj [("error", Js.Str "Internal error");
                                     ("requestId", Js.Str fileId)]) |}.

(** The text the catch block logs for a caught value. *)
Definition logged (fileId : string) (error : thrown) : effect :=
  ConsoleError ["FAILED " ++ fileId ++ ":";
                err_stack match error with
                          | Error_ _ => error
                          | NotError text => new_Error text
                          end].

(** An external call of the try block fails: the write, or the send that
    follows a write that went through. *)
Definition call_fails (env : Env) : Prop :=
  dynamo_fault env <> None \/ sqs_fault env <> None.

(** The shape of a metadata record: exactly the four attributes, the
    partition key among them. *)
Definition is_metadata_record (item : Js.value) : Prop :=
  Js.keys item = ["fileId"; "status"; "timestamp"; "size"]
  /\ is_Some (item_key item).

(** The statement that a run writes one record, sends one message and
    answers with the success response. *)
Definition writes_and_sends_once (event : S3Event) (env : Env) (w : World) : Prop :=
  exists resp w' tn item url msg k,
    handler event env w = (Resolved resp, w')
    /\ statusCode resp = 200%Z
    /\ new_effects w w' = [PutItem tn item; SendMessage url msg]
    /\ item_key item = Some k
    /\ table w' = <[k := item]> (table w)
    /\ queue w' = (queue w ++ [msg])%list.

(** An item the run persists: one it passes to the table in a write, or
    one the table holds under some key after the run and did not before. *)
Definition persists (event : S3Event) (env : Env) (w : World) (item : Js.value) : Prop :=
  let w' := snd (handler event env w) in
  (exists tn, In (PutItem tn item) (new_effects w w'))
  \/ (exists k, table w' !! k = Some item /\ table w !! k <> Some item).

(** ** Sample inputs *)

Definition upload (k : string) (bytes : N) : S3EventRecord :=
  {| s3 := {| object := {| key := k; size := bytes |} |} |}.

Definition event_of (records : list S3EventRecord) : S3Event :=
  {| Records := Some records |}.

Definition no_records_event : S3Event := {| Records := None |}.

Definition empty_world : World := {| table := ∅; queue := []; trace := [] |}.

Definition healthy : Env :=
  {| TABLE_NAME := "MetadataTable";
     QUEUE_URL := "https://sqs.example/NotificationQueue";
     now := "2024-01-01T00:00:00.000Z";
     dynamo_fault := None;
     sqs_fault := None |}.

Definition dynamo_down : Env :=
  {| TABLE_NAME := "MetadataTable";
     QUEUE_URL := "https://sqs.example/NotificationQueue";
     now := "2024-01-01T00:00:00.000Z";
     dynamo_fault := Some (Error_ "ResourceNotFoundException: table not found");
     sqs_fault := None |}.

Definition sqs_down : Env :=
  {| TABLE_NAME := "MetadataTable";
     QUEUE_URL := "https://sqs.example/NotificationQueue";
     now := "2024-01-01T00:00:00.000Z";
     dynamo_fault := None;
     sqs_fault := Some (NotError "timeout") |}.

(** ** Vocabulary of the further properties *)

(** The key of [Records[0]], the [fileId] of a run, when there is one. *)
Definition first_key (event : S3Event) : option string :=
  match Records event with
  | Some (record :: _) => Some (key (object (s3 record)))
  | _ => None
  end.

(** Both service calls go through. *)
Definition no_fault (env : Env) : Prop :=
  dynamo_fault env = None /\ sqs_fault env = None.

(** Reading a decimal numeral back as a number. *)
Definition Number_of_String (s : string) : option N :=
  option_map N.of_uint (NilEmpty.uint_of_string s).

(** [a] is a prefix of [b]. *)
Fixpoint starts_with (a b : string) : bool :=
  match a, b with
  | EmptyString, _ => true
  | String x a', String y b' => Ascii.eqb x y && starts_with a' b'
  | String _ _, EmptyString => false
  end.

(** The 256 characters. *)
Definition all_ascii : list ascii := map ascii_of_nat (seq 0 256).

(** The value of an environment variable in the declaration of a function. *)
Fixpoint lookup_var (name : string) (vars : list (string * Cdk.Ref)) : option Cdk.Ref :=
  match vars with
  | [] => None
  | (n, ref) :: rest => if String.eqb n name then Some ref else lookup_var name rest
  end.

(** The environment variables a function of the stack was declared with. *)
Fixpoint environment_of (stack : Cdk.Stack) (fn : string)
  : option (list (string * Cdk.Ref)) :=
  match stack with
  | [] => None
  | Cdk.new_Function id _ _ _ vars :: rest =>
      if String.eqb id fn then Some vars else environment_of rest fn
  | _ :: rest => environment_of rest fn
  end.

(** What the handler is given when it runs as a function of the stack:
    deployment gives each reference its physical name, and the two
    variables of the function hold the names of what they refer to. *)
Definition deployed_env (stack : Cdk.Stack) (fn : string) (physical : Cdk.Ref -> string)
    (clock : string) (dynamo sqs : option thrown) : option Env :=
  match environment_of stack fn with
  | Some vars =>
      match lookup_var "TABLE_NAME" vars, lookup_var "QUEUE_URL" vars with
      | Some t, Some q =>
          Some {| TABLE_NAME := physical t; QUEUE_URL := physical q; now := clock;
                  dynamo_fault := dynamo; sqs_fault := sqs |}
      | _, _ => None
      end
  | None => None
  end.

(** The stack grants the function what a call needs: writing to the table
    the call names, sending to the queue the call names.  Writing to the
    console needs no grant. *)
Definition granted (stack : Cdk.Stack) (physical : Cdk.Ref -> string) (fn : string)
    (e : effect) : bool :=
  match e with
  | PutItem tn _ =>
      existsb (fun st =>
                 match st with
                 | Cdk.grantWriteData t grantee =>
                     String.eqb grantee fn && String.eqb (physical (Cdk.tableName t)) tn
                 | _ => false
                 end) stack
  | SendMessage url _ =>
      existsb (fun st =>
                 match st with
                 | Cdk.grantSendMessages q grantee =>
                     String.eqb grantee fn && String.eqb (physical (Cdk.queueUrl q)) url
                 | _ => false
                 end) stack
  | ConsoleError _ => true
  end.

(** Sample physical names. *)
Definition sample_names (ref : Cdk.Ref) : string :=
  match ref with
  | Cdk.tableName t => "table/" ++ t
  | Cdk.queueUrl q => "https://sqs.example/" ++ q
  end.

(** ** Runs of the handler *)

Section Runs.

Variables (env : Env) (w : World).

Lemma new_effects_app (t : list effect) (tb : gmap string Js.value) (q : list string) :
  new_effects w {| table := tb; queue := q; trace := trace w ++ t |} = t.
Proof. unfold new_effects; simpl. apply drop_app_length. Qed.

Lemma new_effects_same : new_effects w w = [].
Proof. unfold new_effects. apply drop_all. Qed.

Lemma item_key_metadata fileId timestamp record :
  item_key (metadata_of fileId timestamp record) = Some fileId.
Proof. reflexivity. Qed.

Lemma handler_malformed event :
  malformed event -> handler event env w = (Resolved invalid_event, w).
Proof.
  intros [H | H]; unfold handler, no_Records; rewrite H; reflexivity.
Qed.

(** The three runs on an event with a first record. *)
Lemma handler_run event record rest :
  Records event = Some (record :: rest) ->
  let fileId := key (object (s3 record)) in
  let metadata := metadata_of fileId (now env) record in
  let put := PutItem (TABLE_NAME env) metadata in
  let send := SendMessage (QUEUE_URL env) (JSON.stringify metadata) in
  handler event env w =
  match dynamo_fault env, sqs_fault env with
  | Some e, _ =>
      (Resolved (internal_error fileId),
       {| table := table w; queue := queue w;
          trace := trace w ++ [put; logged fileId e] |})
  | None, Some e =>
      (Resolved (internal_error fileId),
       {| table := <[fileId := metadata]> (table w); queue := queue w;
          trace := trace w ++ [put; send; logged fileId e] |})
  | None, None =>
      (Resolved (success fileId),
       {| table := <[fileId := metadata]> (table w);
          queue := queue w ++ [JSON.stringify metadata];
          trace := trace w ++ [put; send] |})
  end.
Proof.
  intros HR fileId metadata put send.
  unfold handler, no_Records, Records_0. rewrite HR. simpl.
  unfold try_catch, await, Date_toISOString, getenv, dynamo_send_PutItem,
    sqs_send_SendMessage, console_error, resolve, emit. simpl.
  fold fileId. fold metadata.
  destruct (dynamo_fault env) as [e|]; simpl.
  - rewrite <- app_assoc. destruct e; reflexivity.
  - destruct (sqs_fault env) as [e|]; simpl.
    + rewrite <- !app_assoc. destruct e; reflexivity.
    + rewrite <- app_assoc. reflexivity.
Qed.

End Runs.

(** ** Sample runs *)

Example run_healthy :
  let '(r, w') := handler (event_of [upload "a.txt" 12]) healthy empty_world in
  r = Resolved (success "a.txt")
  /\ queue w' = [JSON.stringify (metadata_of "a.txt" (now healthy) (upload "a.txt" 12))]
  /\ table w' !! "a.txt" = Some (metadata_of "a.txt" (now healthy) (upload "a.txt" 12))
  /\ length (trace w') = 2.
Proof. vm_compute. repeat split. Qed.

Example run_sqs_down :
  let '(r, w') := handler (event_of [upload "a.txt" 12]) sqs_down empty_world in
  r = Resolved (internal_error "a.txt")
  /\ queue w' = []
  /\ table w' !! "a.txt" = Some (metadata_of "a.txt" (now sqs_down) (upload "a.txt" 12))
  /\ nth_error (trace w') 2 = Some (ConsoleError ["FAILED a.txt:"; "Error: timeout"]).
Proof. vm_compute. repeat split. Qed.

Example size_is_decimal : String_of_number 1048576 = "1048576".
Proof. reflexivity. Qed.

Example quote_escapes :
  JSON.stringify (Js.Str ("a" ++ JSON.dquote ++ "b"))
  = JSON.dquote ++ "a" ++ JSON.backslash ++ JSON.dquote ++ "b" ++ JSON.dquote.
Proof. reflexivity. Qed.

(** ** Properties of the handler *)

Lemma event_cases (event : S3Event) : malformed event \/ well_formed event.
Proof.
  unfold malformed, well_formed.
  destruct (Records event) as [[|record rest]|]; eauto.
Qed.

Lemma handler_resolves event env w :
  exists resp w', handler event env w = (Resolved resp, w').
Proof.
  destruct (event_cases event) as [H | (record & rest & H)].
  - rewrite (handler_malformed env w event H). eauto.
  - rewrite (handler_run env w event record rest H).
    destruct (dynamo_fault env), (sqs_fault env); eauto.
Qed.

(** C1, as stated, fails: on a well-formed event whose table write is
    rejected, the run writes nothing, sends nothing and answers 500. *)
Lemma write_rejected_counterexample :
  well_formed (event_of [upload "a.txt" 12])
  /\ ~ writes_and_sends_once (event_of [upload "a.txt" 12]) dynamo_down empty_world.
Proof.
  split.
  - exists (upload "a.txt" 12), []. reflexivity.
  - intros (resp & w' & tn & item & url & msg & k & Hrun & Hstatus & _).
    vm_compute in Hrun. inversion Hrun; subst resp. discriminate Hstatus.
Qed.

(** C1 (amended): for every well-formed event on which both external calls
    succeed, the handler writes exactly one metadata record to the table,
    then sends exactly one message to the queue, and returns its success
    response. *)
Theorem handler_writes_and_sends_once event env w :
  well_formed event ->
  dynamo_fault env = None ->
  sqs_fault env = None ->
  writes_and_sends_once event env w.
Proof.
  intros (record & rest & HR) Hd Hs.
  pose proof (handler_run env w event record rest HR) as Hrun.
  cbv zeta in Hrun. rewrite Hd, Hs in Hrun.
  unfold writes_and_sends_once.
  do 7 eexists. split; [exact Hrun |].
  split; [reflexivity |].
  split; [apply new_effects_app |].
  split; [apply item_key_metadata |].
  split; reflexivity.
Qed.

Lemma handler_writes_and_sends_once_witness :
  writes_and_sends_once (event_of [upload "a.txt" 12]) healthy empty_world.
Proof.
  apply handler_writes_and_sends_once.
  - exists (upload "a.txt" 12), []. reflexivity.
  - reflexivity.
  - reflexivity.
Defined.

(** C2: for every malformed event (Records missing or empty) the handler
    returns a response whose statusCode is 400. *)
Theorem handler_rejects_malformed event env w :
  malformed event ->
  exists resp w', handler event env w = (Resolved resp, w') /\ statusCode resp = 400%Z.
Proof.
  intros H. exists invalid_event, w. split.
  - apply handler_malformed, H.
  - reflexivity.
Qed.

Lemma handler_rejects_malformed_witness :
  exists resp w',
    handler (event_of []) healthy empty_world = (Resolved resp, w')
    /\ statusCode resp = 400%Z.
Proof.
  apply handler_rejects_malformed. right. reflexivity.
Defined.

(** C5, as stated, fails: two uploads whose table write is rejected with
    the same error get different 500 responses, each naming its own key. *)
Lemma internal_error_varies_counterexample :
  well_formed (event_of [upload "a.txt" 12])
  /\ well_formed (event_of [upload "b.txt" 12])
  /\ call_fails dynamo_down
  /\ fst (handler (event_of [upload "a.txt" 12]) dynamo_down empty_world)
     <> fst (handler (event_of [upload "b.txt" 12]) dynamo_down empty_world).
Proof.
  split; [exists (upload "a.txt" 12), []; reflexivity |].
  split; [exists (upload "b.txt" 12), []; reflexivity |].
  split; [left; discriminate |].
  vm_compute. intros H. discriminate H.
Qed.

(** C5 (amended): for every input on which an external call in the try
    block fails, the single generic catch produces the response with
    statusCode 500 and body [{error: "Internal error", requestId: fileId}],
    fileId being the key of the first record; it is the same whatever the
    error and whichever call failed, and depends on the input through that
    key only. *)
Theorem handler_internal_error event record rest env w :
  Records event = Some (record :: rest) ->
  call_fails env ->
  fst (handler event env w) = Resolved (internal_error (key (object (s3 record)))).
Proof.
  intros HR Hfail.
  rewrite (handler_run env w event record rest HR).
  destruct (dynamo_fault env) as [e|] eqn:Hd; [reflexivity |].
  destruct (sqs_fault env) as [e|] eqn:Hs; [reflexivity |].
  destruct Hfail as [Hfail | Hfail]; contradiction.
Qed.

Lemma handler_internal_error_witness :
  fst (handler (event_of [upload "a.txt" 12; upload "b.txt" 7]) sqs_down empty_world)
  = Resolved (internal_error "a.txt").
Proof.
  apply (handler_internal_error (event_of [upload "a.txt" 12; upload "b.txt" 7])
           (upload "a.txt" 12) [upload "b.txt" 7] sqs_down empty_world).
  - reflexivity.
  - right. discriminate.
Defined.

(** C6: for every well-formed event the effects of the handler are one
    linear sequence, the write to the table, then the send to the queue,
    then the response; a run leaves it only through the catch-all, after
    the write or after the send, where it logs and answers 500. *)
Theorem handler_effects_in_order event env w :
  well_formed event ->
  exists resp w' tn item url msg,
    handler event env w = (Resolved resp, w')
    /\ ((statusCode resp = 200%Z
         /\ new_effects w w' = [PutItem tn item; SendMessage url msg])
        \/ (statusCode resp = 500%Z
            /\ exists log, new_effects w w' = [PutItem tn item; ConsoleError log])
        \/ (statusCode resp = 500%Z
            /\ exists log,
                new_effects w w'
                = [PutItem tn item; SendMessage url msg; ConsoleError log])).
Proof.
  intros (record & rest & HR).
  pose proof (handler_run env w event record rest HR) as Hrun. cbv zeta in Hrun.
  set (metadata := metadata_of (key (object (s3 record))) (now env) record) in *.
  destruct (dynamo_fault env) as [e|]; [| destruct (sqs_fault env) as [e|]];
    eexists _, _, (TABLE_NAME env), metadata, (QUEUE_URL env), (JSON.stringify metadata);
    (split; [exact Hrun |]).
  - right; left. split; [reflexivity |]. eexists. apply new_effects_app.
  - right; right. split; [reflexivity |]. eexists. apply new_effects_app.
  - left. split; [reflexivity |]. apply new_effects_app.
Qed.

Lemma handler_effects_in_order_witness :
  exists resp w' tn item url msg,
    handler (event_of [upload "a.txt" 12]) sqs_down empty_world = (Resolved resp, w')
    /\ ((statusCode resp = 200%Z
         /\ new_effects empty_world w' = [PutItem tn item; SendMessage url msg])
        \/ (statusCode resp = 500%Z
            /\ exists log,
                new_effects empty_world w' = [PutItem tn item; ConsoleError log])
        \/ (statusCode resp = 500%Z
            /\ exists log,
                new_effects empty_world w'
                = [PutItem tn item; SendMessage url msg; ConsoleError log])).
Proof.
  apply handler_effects_in_order.
  exists (upload "a.txt" 12), []. reflexivity.
Defined.

(** C7: every record the handler persists is a metadata record with
    exactly the attributes fileId, status, timestamp and size, and the
    partition key fileId is present in it. *)
Theorem persisted_item_is_metadata_record event env w item :
  persists event env w item -> is_metadata_record item.
Proof.
  unfold persists.
  destruct (event_cases event) as [H | (record & rest & H)].
  - rewrite (handler_malformed env w event H); simpl.
    rewrite new_effects_same.
    intros [(tn & []) | (k & Hafter & Hbefore)]. contradiction.
  - rewrite (handler_run env w event record rest H).
    set (fileId := key (object (s3 record))).
    set (metadata := metadata_of fileId (now env) record).
    assert (Hmeta : is_metadata_record metadata).
    { split; [reflexivity | exists fileId; reflexivity]. }
    assert (Hins : forall k, <[fileId := metadata]> (table w) !! k = Some item ->
                             table w !! k <> Some item -> item = metadata).
    { intros k Hafter Hbefore. rewrite lookup_insert in Hafter.
      case_decide; [congruence | contradiction]. }
    destruct (dynamo_fault env) as [e|]; [| destruct (sqs_fault env) as [e|]];
      simpl; rewrite new_effects_app;
      (intros [(tn & Hin) | (k & Hafter & Hbefore)];
       [ unfold logged in Hin; simpl in Hin; intuition congruence
       | first [ contradiction | rewrite (Hins k Hafter Hbefore); exact Hmeta ] ]).
Qed.

Lemma persisted_item_is_metadata_record_witness :
  is_metadata_record (metadata_of "a.txt" (now healthy) (upload "a.txt" 12)).
Proof.
  apply (persisted_item_is_metadata_record
           (event_of [upload "a.txt" 12]) healthy empty_world).
  right. exists "a.txt". split.
  - vm_compute. reflexivity.
  - vm_compute. discriminate.
Defined.

(** C8: on an event with two or more records the handler processes the
    first one only: the run is the run on the event cut down to Records[0],
    so the later records change neither the table, the queue nor the
    response, and the item written and the fileId returned are those of
    Records[0]. *)
Theorem handler_first_record_only records record env w :
  2 <= length records ->
  nth_error records 0 = Some record ->
  handler (event_of records) env w = handler (event_of [record]) env w
  /\ (fst (handler (event_of records) env w) = Resolved (success (key (object (s3 record))))
      \/ fst (handler (event_of records) env w)
         = Resolved (internal_error (key (object (s3 record)))))
  /\ (forall tn item,
        In (PutItem tn item) (new_effects w (snd (handler (event_of records) env w))) ->
        item = metadata_of (key (object (s3 record))) (now env) record).
Proof.
  intros Hlen Hfirst.
  destruct records as [|r rest]; [discriminate Hfirst |].
  injection Hfirst as ->.
  rewrite (handler_run env w (event_of (record :: rest)) record rest eq_refl).
  rewrite (handler_run env w (event_of [record]) record [] eq_refl).
  split; [reflexivity |].
  destruct (dynamo_fault env) as [e|]; [| destruct (sqs_fault env) as [e|]];
    simpl; rewrite new_effects_app; (split; [auto |]);
    intros tn item Hin; unfold logged in Hin; simpl in Hin; intuition congruence.
Qed.

Lemma handler_first_record_only_witness :
  handler (event_of [upload "a.txt" 12; upload "b.txt" 7]) healthy empty_world
  = handler (event_of [upload "a.txt" 12]) healthy empty_world
  /\ (fst (handler (event_of [upload "a.txt" 12; upload "b.txt" 7]) healthy empty_world)
      = Resolved (success "a.txt")
      \/ fst (handler (event_of [upload "a.txt" 12; upload "b.txt" 7]) healthy empty_world)
         = Resolved (internal_error "a.txt"))
  /\ (forall tn item,
        In (PutItem tn item)
           (new_effects empty_world
              (snd (handler (event_of [upload "a.txt" 12; upload "b.txt" 7])
                      healthy empty_world))) ->
        item = metadata_of "a.txt" (now healthy) (upload "a.txt" 12)).
Proof.
  apply (handler_first_record_only
           [upload "a.txt" 12; upload "b.txt" 7] (upload "a.txt" 12) healthy empty_world).
  - simpl. lia.
  - reflexivity.
Defined.

(** C9: the body of a message the handler sends to the queue is the JSON
    serialization of the very item it wrote to the table in that run: the
    same item was passed to the write, and the table holds it under its
    key when the run ends. *)
Theorem message_is_serialized_item event env w url msg :
  In (SendMessage url msg) (new_effects w (snd (handler event env w))) ->
  exists tn item k,
    In (PutItem tn item) (new_effects w (snd (handler event env w)))
    /\ msg = JSON.stringify item
    /\ item_key item = Some k
    /\ table (snd (handler event env w)) !! k = Some item.
Proof.
  destruct (event_cases event) as [H | (record & rest & H)].
  - rewrite (handler_malformed env w event H); simpl.
    rewrite new_effects_same. intros [].
  - rewrite (handler_run env w event record rest H).
    set (fileId := key (object (s3 record))).
    set (metadata := metadata_of fileId (now env) record).
    destruct (dynamo_fault env) as [e|]; [| destruct (sqs_fault env) as [e|]];
      cbn [snd table]; rewrite new_effects_app; unfold logged; cbn [In]; intros Hin.
    + intuition congruence.
    + exists (TABLE_NAME env), metadata, fileId.
      split; [left; reflexivity |].
      split; [intuition congruence |].
      split; [reflexivity | apply lookup_insert_eq].
    + exists (TABLE_NAME env), metadata, fileId.
      split; [left; reflexivity |].
      split; [intuition congruence |].
      split; [reflexivity | apply lookup_insert_eq].
Qed.

Lemma message_is_serialized_item_witness :
  exists tn item k,
    In (PutItem tn item)
       (new_effects empty_world
          (snd (handler (event_of [upload "a.txt" 12]) healthy empty_world)))
    /\ JSON.stringify (metadata_of "a.txt" (now healthy) (upload "a.txt" 12))
       = JSON.stringify item
    /\ item_key item = Some k
    /\ table (snd (handler (event_of [upload "a.txt" 12]) healthy empty_world)) !! k
       = Some item.
Proof.
  apply (message_is_serialized_item
           (event_of [upload "a.txt" 12]) healthy empty_world (QUEUE_URL healthy)).
  vm_compute. right. left. reflexivity.
Defined.

(** C10: for every malformed event the handler returns 400 without any
    external call: nothing is added to the trace, and the table and the
    queue are as they were. *)
Theorem handler_malformed_no_effect event env w :
  malformed event ->
  exists resp w',
    handler event env w = (Resolved resp, w')
    /\ statusCode resp = 400%Z
    /\ new_effects w w' = []
    /\ table w' = table w
    /\ queue w' = queue w
    /\ w' = w.
Proof.
  intros H. exists invalid_event, w.
  split; [apply handler_malformed, H |].
  split; [reflexivity |].
  split; [apply new_effects_same |].
  repeat split.
Qed.

Lemma handler_malformed_no_effect_witness :
  exists resp w',
    handler no_records_event dynamo_down empty_world = (Resolved resp, w')
    /\ statusCode resp = 400%Z
    /\ new_effects empty_world w' = []
    /\ table w' = table empty_world
    /\ queue w' = queue empty_world
    /\ w' = empty_world.
Proof.
  apply handler_malformed_no_effect. left. reflexivity.
Defined.

(** ** Properties of the deployed stack *)

(** C3 (the code departs from the claim): an object created in the upload
    bucket is notified to the queue, and to nothing else; no function polls
    that queue, so the upload invokes no function. *)
Theorem upload_invokes_no_function :
  Cdk.notification_targets Cdk.MySmallProjectStack "UploadBucket" Cdk.OBJECT_CREATED
  = [Cdk.SqsDestination "NotificationQueue"; Cdk.SqsDestination "NotificationQueue"]
  /\ Cdk.queue_consumers Cdk.MySmallProjectStack "NotificationQueue" = []
  /\ Cdk.invoked_on Cdk.MySmallProjectStack "UploadBucket" Cdk.OBJECT_CREATED = [].
Proof. repeat split. Qed.

(** C4 (the code departs from the claim): the route GET /files/{fileId} is
    integrated with the file processor; the processor takes the request for
    an event without Records and answers 400, whatever the table holds for
    the identifier, and reads nothing. *)
Theorem GET_file_runs_the_processor fileId env w :
  Cdk.route Cdk.MySmallProjectStack "FileApi" "GET" ["files"; fileId]
  = Some (Cdk.LambdaIntegration "LambdaProcessingTheFile")
  /\ exists run,
      serve Cdk.MySmallProjectStack "FileApi"
        {| httpMethod := "GET"; path := ["files"; fileId] |} = Some run
      /\ run env w = (Resolved invalid_event, w).
Proof.
  split; [reflexivity |].
  exists (handler no_records_event). split; reflexivity.
Qed.

Example GET_stored_file :
  let stored := metadata_of "a.txt" (now healthy) (upload "a.txt" 12) in
  let w := {| table := {[ "a.txt" := stored ]}; queue := []; trace := [] |} in
  exists run,
    serve Cdk.MySmallProjectStack "FileApi"
      {| httpMethod := "GET"; path := ["files"; "a.txt"] |} = Some run
    /\ table w !! "a.txt" = Some stored
    /\ run healthy w = (Resolved invalid_event, w).
Proof.
  exists (handler no_records_event). repeat split.
Qed.

(** ** Further properties of the handler *)


Lemma first_key_well_formed event record rest :
  Records event = Some (record :: rest) ->
  first_key event = Some (key (object (s3 record))).
Proof. intros H. unfold first_key. rewrite H. reflexivity. Qed.

Lemma first_key_malformed event : malformed event -> first_key event = None.
Proof. intros [H | H]; unfold first_key; rewrite H; reflexivity. Qed.


(** X2: a send that fails after the write went through is not rolled back:
    the response is 500, the queue is as it was, and the table holds the
    new record under the key of the file. *)
Theorem send_failure_keeps_record event record rest env w e :
  Records event = Some (record :: rest) ->
  dynamo_fault env = None ->
  sqs_fault env = Some e ->
  fst (handler event env w) = Resolved (internal_error (key (object (s3 record))))
  /\ table (snd (handler event env w)) !! key (object (s3 record))
     = Some (metadata_of (key (object (s3 record))) (now env) record)
  /\ queue (snd (handler event env w)) = queue w.
Proof.
  intros HR Hd Hs.
  rewrite (handler_run env w event record rest HR), Hd, Hs.
  cbn [fst snd table queue].
  split; [reflexivity |]. split; [apply lookup_insert_eq | reflexivity].
Qed.

Lemma send_failure_keeps_record_witness :
  fst (handler (event_of [upload "a.txt" 12]) sqs_down empty_world)
  = Resolved (internal_error "a.txt")
  /\ table (snd (handler (event_of [upload "a.txt" 12]) sqs_down empty_world)) !! "a.txt"
     = Some (metadata_of "a.txt" (now sqs_down) (upload "a.txt" 12))
  /\ queue (snd (handler (event_of [upload "a.txt" 12]) sqs_down empty_world)) = [].
Proof.
  apply (send_failure_keeps_record (event_of [upload "a.txt" 12]) (upload "a.txt" 12) []
           sqs_down empty_world (NotError "timeout")); reflexivity.
Defined.

(** X3: when the write to the table fails, the send is not attempted and
    neither the table nor the queue changes. *)
Theorem write_failure_changes_nothing event env w e :
  well_formed event ->
  dynamo_fault env = Some e ->
  table (snd (handler event env w)) = table w
  /\ queue (snd (handler event env w)) = queue w
  /\ forall url msg,
      ~ In (SendMessage url msg) (new_effects w (snd (handler event env w))).
Proof.
  intros (record & rest & HR) Hd.
  rewrite (handler_run env w event record rest HR), Hd.
  cbn [snd table queue]. rewrite new_effects_app.
  repeat split. intros url msg Hin. unfold logged in Hin. cbn [In] in Hin.
  intuition discriminate.
Qed.

Lemma write_failure_changes_nothing_witness :
  table (snd (handler (event_of [upload "a.txt" 12]) dynamo_down empty_world))
  = table empty_world
  /\ queue (snd (handler (event_of [upload "a.txt" 12]) dynamo_down empty_world))
     = queue empty_world
  /\ forall url msg,
      ~ In (SendMessage url msg)
          (new_effects empty_world
             (snd (handler (event_of [upload "a.txt" 12]) dynamo_down empty_world))).
Proof.
  apply (write_failure_changes_nothing (event_of [upload "a.txt" 12]) dynamo_down
           empty_world (Error_ "ResourceNotFoundException: table not found")).
  - exists (upload "a.txt" 12), []. reflexivity.
  - reflexivity.
Defined.

(** X4: a run touches the table under the key of the first record only:
    what the table holds under any other key is what it held before. *)
Theorem handler_other_keys_untouched event env w (k : string) :
  first_key event <> Some k ->
  table (snd (handler event env w)) !! k = table w !! k.
Proof.
  intros Hk.
  destruct (event_cases event) as [H | (record & rest & HR)].
  - rewrite (handler_malformed env w event H). reflexivity.
  - rewrite (first_key_well_formed event record rest HR) in Hk.
    rewrite (handler_run env w event record rest HR).
    destruct (dynamo_fault env) as [e|]; [| destruct (sqs_fault env) as [e|]];
      cbn [snd table]; try reflexivity;
      apply lookup_insert_ne; congruence.
Qed.

Lemma handler_other_keys_untouched_witness :
  table (snd (handler (event_of [upload "a.txt" 12]) healthy empty_world)) !! "b.txt"
  = table empty_world !! "b.txt".
Proof.
  apply (handler_other_keys_untouched (event_of [upload "a.txt" 12]) healthy
           empty_world "b.txt").
  vm_compute. discriminate.
Defined.

(** X5: the queue and the trace only grow: a run keeps the messages the
    queue held, in order, and appends one message exactly when it answers
    200 and none otherwise. *)
Theorem handler_queue_append_only event env w :
  exists resp w' msgs t,
    handler event env w = (Resolved resp, w')
    /\ queue w' = (queue w ++ msgs)%list
    /\ trace w' = (trace w ++ t)%list
    /\ (statusCode resp = 200%Z -> length msgs = 1)
    /\ (statusCode resp <> 200%Z -> msgs = []).
Proof.
  destruct (event_cases event) as [H | (record & rest & HR)].
  - exists invalid_event, w, [], [].
    split; [apply handler_malformed, H |].
    rewrite !app_nil_r. repeat split. discriminate.
  - pose proof (handler_run env w event record rest HR) as Hrun. cbv zeta in Hrun.
    destruct (dynamo_fault env) as [e|]; [| destruct (sqs_fault env) as [e|]].
    + eexists _, _, [], _. split; [exact Hrun |].
      cbn [queue trace statusCode internal_error]. rewrite app_nil_r.
      repeat split. discriminate.
    + eexists _, _, [], _. split; [exact Hrun |].
      cbn [queue trace statusCode internal_error]. rewrite app_nil_r.
      repeat split. discriminate.
    + eexists _, _, [_], _. split; [exact Hrun |].
      cbn [queue trace statusCode success].
      repeat split. intros Hne. contradiction Hne. reflexivity.
Qed.

(** X6: processing the same key again replaces the record and keeps both
    messages: after two runs that go through on events with the same first
    key, the table holds the record of the second run under that key, as
    if the first run had not written, and the queue ends with the message
    of the first run followed by that of the second. *)
Theorem reprocessing_overwrites ev1 r1 rest1 ev2 r2 rest2 env1 env2 w :
  Records ev1 = Some (r1 :: rest1) ->
  Records ev2 = Some (r2 :: rest2) ->
  key (object (s3 r1)) = key (object (s3 r2)) ->
  no_fault env1 ->
  no_fault env2 ->
  let fileId := key (object (s3 r2)) in
  let w1 := snd (handler ev1 env1 w) in
  let w2 := snd (handler ev2 env2 w1) in
  table w2 = <[fileId := metadata_of fileId (now env2) r2]> (table w)
  /\ queue w2
     = (queue w ++ [JSON.stringify (metadata_of fileId (now env1) r1);
                    JSON.stringify (metadata_of fileId (now env2) r2)])%list.
Proof.
  intros HR1 HR2 Hk [Hd1 Hs1] [Hd2 Hs2] fileId w1 w2.
  subst w2 w1.
  rewrite (handler_run env1 w ev1 r1 rest1 HR1), Hd1, Hs1. cbn [snd].
  rewrite (handler_run env2 _ ev2 r2 rest2 HR2), Hd2, Hs2.
  cbn [snd table queue]. rewrite Hk. fold fileId.
  split.
  - apply insert_insert_eq.
  - rewrite <- app_assoc. reflexivity.
Qed.

Lemma reprocessing_overwrites_witness :
  let w1 := snd (handler (event_of [upload "a.txt" 12]) healthy empty_world) in
  let w2 := snd (handler (event_of [upload "a.txt" 40]) healthy w1) in
  table w2 = <["a.txt" := metadata_of "a.txt" (now healthy) (upload "a.txt" 40)]>
               (table empty_world)
  /\ queue w2
     = (queue empty_world
          ++ [JSON.stringify (metadata_of "a.txt" (now healthy) (upload "a.txt" 12));
              JSON.stringify (metadata_of "a.txt" (now healthy) (upload "a.txt" 40))])%list.
Proof.
  apply (reprocessing_overwrites
           (event_of [upload "a.txt" 12]) (upload "a.txt" 12) []
           (event_of [upload "a.txt" 40]) (upload "a.txt" 40) []
           healthy healthy empty_world);
    try reflexivity; split; reflexivity.
Defined.

(** X7: the handler writes to the console exactly when it answers 500, and
    what it writes starts with FAILED and the key of the file. *)
Theorem handler_logs_iff_500 event env w :
  exists resp w',
    handler event env w = (Resolved resp, w')
    /\ ((exists args, In (ConsoleError args) (new_effects w w'))
        <-> statusCode resp = 500%Z)
    /\ (forall args,
          In (ConsoleError args) (new_effects w w') ->
          exists fileId text,
            first_key event = Some fileId
            /\ args = ["FAILED " ++ fileId ++ ":"; text]).
Proof.
  destruct (event_cases event) as [H | (record & rest & HR)].
  - exists invalid_event, w. split; [apply handler_malformed, H |].
    rewrite new_effects_same. cbn [statusCode invalid_event].
    split; [split; [intros (args & []) | discriminate] | intros args []].
  - pose proof (handler_run env w event record rest HR) as Hrun. cbv zeta in Hrun.
    rewrite (first_key_well_formed event record rest HR).
    destruct (dynamo_fault env) as [e|]; [| destruct (sqs_fault env) as [e|]];
      eexists _, _; (split; [exact Hrun |]);
      rewrite new_effects_app; unfold logged;
      cbn [statusCode internal_error success In].
    + split; [split; [reflexivity | intros _; eexists; right; left; reflexivity] |].
      intros args [Hin | [Hin | []]]; [discriminate Hin |].
      injection Hin as <-. eauto.
    + split; [split; [reflexivity | intros _; eexists; right; right; left; reflexivity] |].
      intros args [Hin | [Hin | [Hin | []]]]; try discriminate Hin.
      injection Hin as <-. eauto.
    + split; [split; [| discriminate] |].
      * intros (args & [Hin | [Hin | []]]); discriminate Hin.
      * intros args [Hin | [Hin | []]]; discriminate Hin.
Qed.

(** X8: the handler never reads the table or the queue: the response and
    the calls issued are the same whatever the services hold, so an upload
    whose record is already in the table is processed and reported like a
    new one. *)
Theorem response_ignores_world event env w1 w2 :
  fst (handler event env w1) = fst (handler event env w2)
  /\ new_effects w1 (snd (handler event env w1))
     = new_effects w2 (snd (handler event env w2)).
Proof.
  destruct (event_cases event) as [H | (record & rest & HR)].
  - rewrite !(handler_malformed env _ event H). cbn [fst snd].
    rewrite !new_effects_same. split; reflexivity.
  - rewrite !(handler_run env _ event record rest HR).
    destruct (dynamo_fault env) as [e|]; [| destruct (sqs_fault env) as [e|]];
      cbn [fst snd]; rewrite !new_effects_app; split; reflexivity.
Qed.

(** X14: uploads of different files do not interfere in the table: two
    runs that go through on events with different first keys leave the same
    table in either order, holding both records. *)
Theorem distinct_keys_commute ev1 r1 rest1 ev2 r2 rest2 env1 env2 w :
  Records ev1 = Some (r1 :: rest1) ->
  Records ev2 = Some (r2 :: rest2) ->
  key (object (s3 r1)) <> key (object (s3 r2)) ->
  no_fault env1 ->
  no_fault env2 ->
  let k1 := key (object (s3 r1)) in
  let k2 := key (object (s3 r2)) in
  let w12 := snd (handler ev2 env2 (snd (handler ev1 env1 w))) in
  let w21 := snd (handler ev1 env1 (snd (handler ev2 env2 w))) in
  table w12 = table w21
  /\ table w12 !! k1 = Some (metadata_of k1 (now env1) r1)
  /\ table w12 !! k2 = Some (metadata_of k2 (now env2) r2).
Proof.
  intros HR1 HR2 Hk [Hd1 Hs1] [Hd2 Hs2] k1 k2 w12 w21.
  subst w12 w21.
  rewrite (handler_run env1 w ev1 r1 rest1 HR1), Hd1, Hs1. cbn [snd].
  rewrite (handler_run env2 _ ev2 r2 rest2 HR2), Hd2, Hs2. cbn [snd table].
  rewrite (handler_run env2 w ev2 r2 rest2 HR2), Hd2, Hs2. cbn [snd].
  rewrite (handler_run env1 _ ev1 r1 rest1 HR1), Hd1, Hs1. cbn [snd table].
  fold k1 k2. split; [| split].
  - apply insert_insert_ne. intros Heq. apply Hk. symmetry. exact Heq.
  - rewrite lookup_insert_ne by (intros Heq; apply Hk; symmetry; exact Heq).
    apply lookup_insert_eq.
  - apply lookup_insert_eq.
Qed.

Lemma distinct_keys_commute_witness :
  let w12 := snd (handler (event_of [upload "b.txt" 7]) healthy
                    (snd (handler (event_of [upload "a.txt" 12]) healthy empty_world))) in
  let w21 := snd (handler (event_of [upload "a.txt" 12]) healthy
                    (snd (handler (event_of [upload "b.txt" 7]) healthy empty_world))) in
  table w12 = table w21
  /\ table w12 !! "a.txt" = Some (metadata_of "a.txt" (now healthy) (upload "a.txt" 12))
  /\ table w12 !! "b.txt" = Some (metadata_of "b.txt" (now healthy) (upload "b.txt" 7)).
Proof.
  apply (distinct_keys_commute
           (event_of [upload "a.txt" 12]) (upload "a.txt" 12) []
           (event_of [upload "b.txt" 7]) (upload "b.txt" 7) []
           healthy healthy empty_world); try reflexivity.
  - discriminate.
  - split; reflexivity.
  - split; reflexivity.
Defined.

(** ** The serialization loses nothing *)

Lemma string_app_nil (b : string) : (EmptyString ++ b)%string = b.
Proof. reflexivity. Qed.

Lemma string_app_cons (c : ascii) (a b : string) :
  (String c a ++ b)%string = String c (a ++ b).
Proof. reflexivity. Qed.

Lemma string_app_assoc (a b c : string) : ((a ++ b) ++ c = a ++ (b ++ c))%string.
Proof.
  induction a as [|x a IH].
  - reflexivity.
  - rewrite !string_app_cons, IH. reflexivity.
Qed.

Lemma string_app_inv_head (a x y : string) : (a ++ x = a ++ y)%string -> x = y.
Proof.
  induction a as [|c a IH]; intros H.
  - exact H.
  - rewrite !string_app_cons in H. injection H as H. auto.
Qed.

Lemma app_eq_starts_with (a b x y : string) :
  (a ++ x = b ++ y)%string -> starts_with a b = true \/ starts_with b a = true.
Proof.
  revert b. induction a as [|c a IH]; intros [|d b] H; simpl; auto.
  rewrite !string_app_cons in H.
  injection H as -> H. rewrite Ascii.eqb_refl. simpl. exact (IH b H).
Qed.

Lemma in_all_ascii (c : ascii) : In c all_ascii.
Proof.
  unfold all_ascii. rewrite <- (ascii_nat_embedding c).
  apply in_map. apply in_seq. pose proof (nat_ascii_bounded c). lia.
Qed.

Lemma escape_prefix_free_check :
  forallb (fun c1 =>
             forallb (fun c2 =>
                        implb (starts_with (JSON.escape c1) (JSON.escape c2))
                              (Ascii.eqb c1 c2)) all_ascii) all_ascii = true.
Proof. vm_compute. reflexivity. Qed.

Lemma escape_prefix_free c1 c2 :
  starts_with (JSON.escape c1) (JSON.escape c2) = true -> c1 = c2.
Proof.
  intros H.
  pose proof escape_prefix_free_check as Hc.
  rewrite forallb_forall in Hc. specialize (Hc c1 (in_all_ascii c1)).
  rewrite forallb_forall in Hc. specialize (Hc c2 (in_all_ascii c2)).
  rewrite H in Hc. simpl in Hc. apply Ascii.eqb_eq. exact Hc.
Qed.

Lemma escape_inj c1 c2 x y :
  (JSON.escape c1 ++ x = JSON.escape c2 ++ y)%string -> c1 = c2 /\ x = y.
Proof.
  intros H.
  assert (c1 = c2) as ->.
  { destruct (app_eq_starts_with _ _ _ _ H) as [Hp | Hp].
    - apply escape_prefix_free, Hp.
    - symmetry. apply escape_prefix_free, Hp. }
  split; [reflexivity | exact (string_app_inv_head _ _ _ H)].
Qed.

Lemma escape_head_check :
  forallb (fun c => match JSON.escape c with
                    | String h _ => negb (Ascii.eqb h (ascii_of_N 34))
                    | EmptyString => false
                    end) all_ascii = true.
Proof. vm_compute. reflexivity. Qed.

Lemma escape_head c x r : (JSON.escape c ++ x)%string <> (JSON.dquote ++ r)%string.
Proof.
  pose proof escape_head_check as Hc.
  rewrite forallb_forall in Hc. specialize (Hc c (in_all_ascii c)).
  destruct (JSON.escape c) as [|h t]; [discriminate Hc |].
  unfold JSON.dquote. rewrite !string_app_cons. intros H. injection H as -> _.
  vm_compute in Hc. discriminate Hc.
Qed.

Lemma escape_all_inj s1 : forall s2 r1 r2,
  (JSON.escape_all s1 ++ JSON.dquote ++ r1 = JSON.escape_all s2 ++ JSON.dquote ++ r2)%string ->
  s1 = s2 /\ r1 = r2.
Proof.
  induction s1 as [|c1 s1 IH]; intros [|c2 s2] r1 r2 H; cbn [JSON.escape_all] in H.
  - unfold JSON.dquote in H. rewrite !string_app_nil, !string_app_cons in H.
    injection H as H. auto.
  - rewrite string_app_assoc in H. symmetry in H.
    exfalso. exact (escape_head _ _ _ H).
  - rewrite string_app_assoc in H. exfalso. exact (escape_head _ _ _ H).
  - rewrite !string_app_assoc in H.
    apply escape_inj in H as [-> H]. apply IH in H as [-> ->]. auto.
Qed.

Lemma quote_inj s1 s2 r1 r2 :
  (JSON.quote s1 ++ r1 = JSON.quote s2 ++ r2)%string -> s1 = s2 /\ r1 = r2.
Proof.
  unfold JSON.quote. rewrite !string_app_assoc. intros H.
  apply string_app_inv_head in H.
  exact (escape_all_inj _ _ _ _ H).
Qed.


Ltac right_nest H :=
  cbn [body success internal_error invalid_event metadata_of attr_S attr_N
       JSON.stringify JSON.join] in H;
  rewrite ?string_app_assoc in H.

Ltac strip_prefix H := repeat (apply string_app_inv_head in H).

Lemma Number_of_String_of_number (n : N) :
  Number_of_String (String_of_number n) = Some n.
Proof.
  unfold Number_of_String, String_of_number.
  rewrite NilEmpty.usu. simpl. rewrite Unsigned.of_to. reflexivity.
Qed.

Lemma String_of_number_inj (n m : N) :
  String_of_number n = String_of_number m -> n = m.
Proof.
  intros H. pose proof (Number_of_String_of_number n) as Hn.
  rewrite H, Number_of_String_of_number in Hn. congruence.
Qed.

Lemma stringify_metadata_inj k1 t1 r1 k2 t2 r2 :
  JSON.stringify (metadata_of k1 t1 r1) = JSON.stringify (metadata_of k2 t2 r2) ->
  metadata_of k1 t1 r1 = metadata_of k2 t2 r2.
Proof.
  intros H. right_nest H. strip_prefix H.
  apply quote_inj in H as [-> H]. strip_prefix H.
  apply quote_inj in H as [-> H]. strip_prefix H.
  apply quote_inj in H as [Hsize _]. apply String_of_number_inj in Hsize.
  unfold metadata_of. rewrite Hsize. reflexivity.
Qed.

Lemma success_body_inj k1 k2 : body (success k1) = body (success k2) -> k1 = k2.
Proof.
  intros H. right_nest H. strip_prefix H.
  apply quote_inj in H as [-> _]. reflexivity.
Qed.

Lemma internal_error_body_inj k1 k2 :
  body (internal_error k1) = body (internal_error k2) -> k1 = k2.
Proof.
  intros H. right_nest H. strip_prefix H.
  apply quote_inj in H as [-> _]. reflexivity.
Qed.

Lemma success_body_not_error k1 k2 : body (success k1) <> body (internal_error k2).
Proof.
  intros H. right_nest H. strip_prefix H.
  apply quote_inj in H as [H _]. discriminate H.
Qed.

Lemma success_body_not_invalid k : body (success k) <> body invalid_event.
Proof.
  intros H. right_nest H. strip_prefix H.
  apply quote_inj in H as [H _]. discriminate H.
Qed.

Lemma internal_error_body_not_invalid k : body (internal_error k) <> body invalid_event.
Proof.
  intros H. right_nest H. strip_prefix H.
  apply quote_inj in H as [H _]. discriminate H.
Qed.

(** What a run passes to the table and to the queue. *)
Lemma run_calls event env w :
  (forall tn item,
      In (PutItem tn item) (new_effects w (snd (handler event env w))) ->
      exists record rest,
        Records event = Some (record :: rest)
        /\ tn = TABLE_NAME env
        /\ item = metadata_of (key (object (s3 record))) (now env) record)
  /\ (forall url msg,
         In (SendMessage url msg) (new_effects w (snd (handler event env w))) ->
         exists record rest,
           Records event = Some (record :: rest)
           /\ url = QUEUE_URL env
           /\ msg = JSON.stringify
                      (metadata_of (key (object (s3 record))) (now env) record)).
Proof.
  destruct (event_cases event) as [H | (record & rest & HR)].
  - rewrite (handler_malformed env w event H). cbn [snd].
    rewrite new_effects_same. split; intros ? ? [].
  - rewrite (handler_run env w event record rest HR).
    destruct (dynamo_fault env) as [e|]; [| destruct (sqs_fault env) as [e|]];
      cbn [snd]; rewrite new_effects_app; unfold logged; cbn [In];
      split; intros a b Hin; exists record, rest;
      (split; [exact HR |]); intuition congruence.
Qed.

(** The three responses. *)
Lemma run_response event env w :
  (first_key event = None /\ fst (handler event env w) = Resolved invalid_event)
  \/ (exists fileId,
         first_key event = Some fileId
         /\ (fst (handler event env w) = Resolved (success fileId)
             \/ fst (handler event env w) = Resolved (internal_error fileId))).
Proof.
  destruct (event_cases event) as [H | (record & rest & HR)].
  - left. rewrite (handler_malformed env w event H), (first_key_malformed event H).
    split; reflexivity.
  - right. exists (key (object (s3 record))).
    rewrite (handler_run env w event record rest HR),
      (first_key_well_formed event record rest HR).
    split; [reflexivity |].
    destruct (dynamo_fault env) as [e|]; [| destruct (sqs_fault env) as [e|]]; auto.
Qed.

(** X9: the message sent to the queue loses nothing of the record: two
    runs that send the same message body wrote the same item, with the same
    fileId, timestamp and size. *)
Theorem message_body_determines_item ev1 env1 w1 ev2 env2 w2 url1 url2 msg
    tn1 tn2 item1 item2 :
  In (SendMessage url1 msg) (new_effects w1 (snd (handler ev1 env1 w1))) ->
  In (SendMessage url2 msg) (new_effects w2 (snd (handler ev2 env2 w2))) ->
  In (PutItem tn1 item1) (new_effects w1 (snd (handler ev1 env1 w1))) ->
  In (PutItem tn2 item2) (new_effects w2 (snd (handler ev2 env2 w2))) ->
  item1 = item2.
Proof.
  intros Hs1 Hs2 Hp1 Hp2.
  destruct (run_calls ev1 env1 w1) as [Hput1 Hsend1].
  destruct (run_calls ev2 env2 w2) as [Hput2 Hsend2].
  destruct (Hsend1 _ _ Hs1) as (ra & resta & HRa & _ & Hma).
  destruct (Hsend2 _ _ Hs2) as (rb & restb & HRb & _ & Hmb).
  destruct (Hput1 _ _ Hp1) as (ra' & resta' & HRa' & _ & ->).
  destruct (Hput2 _ _ Hp2) as (rb' & restb' & HRb' & _ & ->).
  rewrite HRa in HRa'. injection HRa' as <- _.
  rewrite HRb in HRb'. injection HRb' as <- _.
  apply stringify_metadata_inj. congruence.
Qed.

Lemma message_body_determines_item_witness :
  metadata_of "a.txt" (now healthy) (upload "a.txt" 12)
  = metadata_of "a.txt" (now sqs_down) (upload "a.txt" 12).
Proof.
  apply (message_body_determines_item
           (event_of [upload "a.txt" 12]) healthy empty_world
           (event_of [upload "a.txt" 12; upload "b.txt" 7]) sqs_down empty_world
           (QUEUE_URL healthy) (QUEUE_URL sqs_down)
           (JSON.stringify (metadata_of "a.txt" (now healthy) (upload "a.txt" 12)))
           (TABLE_NAME healthy) (TABLE_NAME sqs_down)).
  - vm_compute. right. left. reflexivity.
  - vm_compute. right. left. reflexivity.
  - vm_compute. left. reflexivity.
  - vm_compute. left. reflexivity.
Defined.

(** X10: the body of the response tells which file and which outcome: two
    runs whose responses have the same body have the same status and the
    same first key, or both no record at all. *)
Theorem response_body_identifies_file ev1 env1 w1 ev2 env2 w2 r1 r2 :
  fst (handler ev1 env1 w1) = Resolved r1 ->
  fst (handler ev2 env2 w2) = Resolved r2 ->
  body r1 = body r2 ->
  statusCode r1 = statusCode r2 /\ first_key ev1 = first_key ev2.
Proof.
  intros H1 H2 Hb.
  destruct (run_response ev1 env1 w1) as [[Hk1 Hr1] | (k1 & Hk1 & [Hr1 | Hr1])];
    destruct (run_response ev2 env2 w2) as [[Hk2 Hr2] | (k2 & Hk2 & [Hr2 | Hr2])];
    rewrite Hr1 in H1; rewrite Hr2 in H2;
    injection H1 as <-; injection H2 as <-; rewrite Hk1, Hk2.
  - split; reflexivity.
  - symmetry in Hb. contradiction (success_body_not_invalid _ Hb).
  - symmetry in Hb. contradiction (internal_error_body_not_invalid _ Hb).
  - contradiction (success_body_not_invalid _ Hb).
  - rewrite (success_body_inj _ _ Hb). split; reflexivity.
  - contradiction (success_body_not_error _ _ Hb).
  - contradiction (internal_error_body_not_invalid _ Hb).
  - symmetry in Hb. contradiction (success_body_not_error _ _ Hb).
  - rewrite (internal_error_body_inj _ _ Hb). split; reflexivity.
Qed.

Lemma response_body_identifies_file_witness :
  statusCode (internal_error "a.txt") = statusCode (internal_error "a.txt")
  /\ first_key (event_of [upload "a.txt" 12])
     = first_key (event_of [upload "a.txt" 40; upload "b.txt" 7]).
Proof.
  apply (response_body_identifies_file
           (event_of [upload "a.txt" 12]) dynamo_down empty_world
           (event_of [upload "a.txt" 40; upload "b.txt" 7]) sqs_down empty_world
           (internal_error "a.txt") (internal_error "a.txt")); reflexivity.
Defined.



(** ** Further properties of the stack *)

(** X12: the stack grants the function every call its handler issues:
    run with the variables the stack injects, whatever the physical names,
    the handler writes only to the table it may write to and sends only to
    the queue it may send to. *)
Theorem handler_calls_are_granted physical clock dynamo sqs env event w e :
  deployed_env Cdk.MySmallProjectStack "LambdaProcessingTheFile"
    physical clock dynamo sqs = Some env ->
  In e (new_effects w (snd (handler event env w))) ->
  granted Cdk.MySmallProjectStack physical "LambdaProcessingTheFile" e = true.
Proof.
  intros Henv Hin. cbn in Henv. injection Henv as <-.
  destruct (run_calls event
              {| TABLE_NAME := physical (Cdk.tableName "MetadataTable");
                 QUEUE_URL := physical (Cdk.queueUrl "NotificationQueue");
                 now := clock; dynamo_fault := dynamo; sqs_fault := sqs |} w)
    as [Hput Hsend].
  destruct e as [tn item | url msg | args].
  - destruct (Hput _ _ Hin) as (_ & _ & _ & -> & _).
    cbn. rewrite String.eqb_refl. reflexivity.
  - destruct (Hsend _ _ Hin) as (_ & _ & _ & -> & _).
    cbn. rewrite String.eqb_refl. reflexivity.
  - reflexivity.
Qed.

Lemma handler_calls_are_granted_witness :
  granted Cdk.MySmallProjectStack sample_names "LambdaProcessingTheFile"
    (SendMessage (sample_names (Cdk.queueUrl "NotificationQueue"))
       (JSON.stringify
          (metadata_of "a.txt" "2024-01-01T00:00:00.000Z" (upload "a.txt" 12))))
  = true.
Proof.
  apply (handler_calls_are_granted sample_names "2024-01-01T00:00:00.000Z" None None
           {| TABLE_NAME := sample_names (Cdk.tableName "MetadataTable");
              QUEUE_URL := sample_names (Cdk.queueUrl "NotificationQueue");
              now := "2024-01-01T00:00:00.000Z";
              dynamo_fault := None; sqs_fault := None |}
           (event_of [upload "a.txt" 12]) empty_world).
  - reflexivity.
  - vm_compute. right. left. reflexivity.
Defined.

Lemma path_matches_files (path : list string) :
  Cdk.path_matches ["files"; "{fileId}"] path = true ->
  exists fileId, path = ["files"; fileId].
Proof.
  destruct path as [|a [|b [|c rest]]];
    cbn [Cdk.path_matches Cdk.segment_matches andb]; intros H;
    try discriminate H.
  - rewrite andb_false_r in H. discriminate H.
  - rewrite andb_true_r in H. apply String.eqb_eq in H. subst a. eauto.
  - rewrite andb_false_r in H. discriminate H.
Qed.

(** X13: the gateway serves one route only: a request is answered by a
    function exactly when it is a GET of /files/{fileId} on FileApi, and
    what answers it is the file processor on an event without Records, so
    the answer is 400 and nothing is read or written. *)
Theorem gateway_serves_only_GET_files api request run :
  serve Cdk.MySmallProjectStack api request = Some run ->
  api = "FileApi"
  /\ httpMethod request = "GET"
  /\ (exists fileId, path request = ["files"; fileId])
  /\ forall env w, run env w = (Resolved invalid_event, w).
Proof.
  unfold serve. cbn [Cdk.route Cdk.MySmallProjectStack].
  destruct (String.eqb "FileApi" api) eqn:Ha; cbn [andb];
    [| intros H; discriminate H].
  destruct (String.eqb "GET" (httpMethod request)) eqn:Hm; cbn [andb];
    [| intros H; discriminate H].
  destruct (Cdk.path_matches ["files"; "{fileId}"] (path request)) eqn:Hp;
    [| intros H; discriminate H].
  cbn. intros H. injection H as <-.
  apply String.eqb_eq in Ha, Hm.
  split; [auto |]. split; [auto |]. split; [apply path_matches_files, Hp |].
  intros env w. reflexivity.
Qed.

Lemma gateway_serves_only_GET_files_witness :
  "FileApi" = "FileApi"
  /\ httpMethod {| httpMethod := "GET"; path := ["files"; "a.txt"] |} = "GET"
  /\ (exists fileId,
         path {| httpMethod := "GET"; path := ["files"; "a.txt"] |} = ["files"; fileId])
  /\ forall env w, handler no_records_event env w = (Resolved invalid_event, w).
Proof.
  apply (gateway_serves_only_GET_files "FileApi"
           {| httpMethod := "GET"; path := ["files"; "a.txt"] |}
           (handler no_records_event)).
  reflexivity.
Defined.
